(** * lib/tools.py: date conversion and the command line entry point

    A shallow embedding of [convert_date] and [main] of [lib/tools.py],
    together with the parts of the Python runtime they call
    ([str.split], [int], [datetime.date], [os.path.basename]); what
    argparse does ([parse_args], the formatting of the usage) is a
    parameter of [main].

    A Python [str] is a [string] whose characters are read as the code
    points below 256; a Python [int] is a [Z]; [None] is the [None] of
    [option]; an exception that leaves a function is the [Raise] of
    [result]. *)

From Stdlib Require Import ZArith NArith List String Ascii Bool Lia.
Import ListNotations.

Local Open Scope string_scope.
Local Open Scope Z_scope.

(** ** Exceptions and results *)

Inductive date_field := Year | Month | Day.

(** The exceptions that can leave [convert_date], kept apart by the place
    that raises them. *)
Inductive exception :=
| ValueError_int (literal : string)
    (* raised by int(x): x is no decimal literal, or has too many digits *)
| ValueError (message : string)
    (* raised by a raise statement of tools.py *)
| ValueError_date (field : date_field)
    (* raised by datetime.date: the field is out of range *)
| OverflowError_date.
    (* raised by datetime.date: an argument does not fit a C int *)

Inductive result (A : Type) :=
| Return (a : A)
| Raise (e : exception).

Arguments Return {A} a.
Arguments Raise {A} e.

Definition bind {A B : Type} (r : result A) (k : A -> result B) : result B :=
  match r with
  | Return a => k a
  | Raise e => Raise e
  end.

Notation "x <- r ;; k" := (bind r (fun x => k))
  (at level 61, r at next level, right associativity).

(** [[f(x) for x in l]]: the elements are converted from left to right and
    the first exception ends the comprehension. *)
Fixpoint comprehension {A B : Type} (f : A -> result B) (l : list A)
  : result (list B) :=
  match l with
  | [] => Return []
  | x :: xs => y <- f x ;; ys <- comprehension f xs ;; Return (y :: ys)
  end.

(** ** Strings *)

Definition code (c : ascii) : Z := Z.of_N (N_of_ascii c).

Definition is_empty (s : string) : bool :=
  match s with
  | EmptyString => true
  | String _ _ => false
  end.

(** [sep in s] for a one character [sep]. *)
Fixpoint contains (sep : ascii) (s : string) : bool :=
  match s with
  | EmptyString => false
  | String c s' => Ascii.eqb c sep || contains sep s'
  end.

(** [s.split(sep)] for a one character [sep]: every occurrence of [sep]
    ends a part, so the result of a string with n separators has n + 1
    parts, some of which may be empty. *)
Fixpoint split (sep : ascii) (s : string) : list string :=
  match s with
  | EmptyString => [EmptyString]
  | String c s' =>
      if Ascii.eqb c sep then EmptyString :: split sep s'
      else match split sep s' with
           | p :: ps => String c p :: ps
           | [] => [String c EmptyString]
           end
  end.

(** [sep.join(parts)]. *)
Fixpoint join (sep : ascii) (parts : list string) : string :=
  match parts with
  | [] => EmptyString
  | [p] => p
  | p :: ps => p ++ String sep (join sep ps)
  end.

(** ** [int(x)] on a string, base 10 *)

(** [Py_ISSPACE]: tab, line feed, vertical tab, form feed, carriage return
    and the space. *)
Definition is_space (c : ascii) : bool :=
  ((9 <=? code c) && (code c <=? 13)) || (code c =? 32).

(** [Py_UNICODE_ISSPACE] on the code points from 127 to 255: next line
    (U+0085) and the no-break space (U+00A0). *)
Definition is_unicode_space (c : ascii) : bool :=
  (code c =? 133) || (code c =? 160).

(** [int] first rewrites its argument to ASCII: a code point below 127 is
    kept, a space beyond that becomes [" "], a decimal digit beyond that
    becomes its ASCII digit (there is none below 256), and at anything else
    the text is cut and ends with ["?"]. *)
Fixpoint transform_decimal_and_space_to_ascii (s : string) : string :=
  match s with
  | EmptyString => EmptyString
  | String c s' =>
      if code c <? 127 then String c (transform_decimal_and_space_to_ascii s')
      else if is_unicode_space c
           then String " " (transform_decimal_and_space_to_ascii s')
           else "?"
  end.

Fixpoint skip_spaces (s : string) : string :=
  match s with
  | EmptyString => EmptyString
  | String c s' => if is_space c then skip_spaces s' else s
  end.

Definition digit_value (c : ascii) : option Z :=
  if (48 <=? code c) && (code c <=? 57) then Some (code c - 48) else None.

Definition is_digit (c : ascii) : bool :=
  match digit_value c with
  | Some _ => true
  | None => false
  end.

(** The scan of the digits: single underscores may stand between digits;
    [prev] tells that the character before was an underscore.  The result
    is the value read, the number of digits read and the text left; [None]
    is a doubled or trailing underscore. *)
Fixpoint scan_digits (s : string) (prev : bool) (value : Z) (digits : nat)
  : option (Z * nat * string) :=
  match s with
  | EmptyString => if prev then None else Some (value, digits, s)
  | String c s' =>
      if Ascii.eqb c "_" then
        if prev then None else scan_digits s' true value digits
      else
        match digit_value c with
        | Some d => scan_digits s' false (10 * value + d) (S digits)
        | None => if prev then None else Some (value, digits, s)
        end
  end.

(** The length above which the limit on the number of digits is looked
    at ([_PY_LONG_MAX_STR_DIGITS_THRESHOLD]). *)
Definition max_str_digits_threshold : nat := 640.

Section Tools.

(** [sys.get_int_max_str_digits()]: 4300 unless set otherwise, 0 for no
    limit (and for the interpreters that have no such limit). *)
Variable int_max_str_digits : nat.

Definition exceeds_max_str_digits (digits : nat) : bool :=
  (max_str_digits_threshold <? digits)%nat
  && (0 <? int_max_str_digits)%nat
  && (int_max_str_digits <? digits)%nat.

Definition int (x : string) : result Z :=
  let invalid := Raise (ValueError_int x) in
  let s := skip_spaces (transform_decimal_and_space_to_ascii x) in
  let '(negative, s) :=
    match s with
    | String c s' =>
        if Ascii.eqb c "+" then (false, s')
        else if Ascii.eqb c "-" then (true, s')
        else (false, s)
    | EmptyString => (false, s)
    end in
  if match s with String c _ => Ascii.eqb c "_" | EmptyString => false end
  then invalid
  else
    match scan_digits s false 0 0 with
    | None => invalid
    | Some (value, digits, rest) =>
        if exceeds_max_str_digits digits then invalid
        else if (digits =? 0)%nat then invalid
        else if is_empty (skip_spaces rest)
             then Return (if negative then - value else value)
             else invalid
    end.

(** ** [datetime.date] *)

Record date := mkdate { year : Z; month : Z; day : Z }.

Definition MINYEAR : Z := 1.
Definition MAXYEAR : Z := 9999.

Definition is_leap (y : Z) : bool :=
  (y mod 4 =? 0) && (negb (y mod 100 =? 0) || (y mod 400 =? 0)).

Definition days_in_month (y m : Z) : Z :=
  if m =? 2 then (if is_leap y then 29 else 28)
  else if (m =? 4) || (m =? 6) || (m =? 9) || (m =? 11) then 30
  else 31.

Definition fits_c_int (z : Z) : bool :=
  (- 2 ^ 31 <=? z) && (z <=? 2 ^ 31 - 1).

(** [datetime.date(year, month, day)]: the arguments are read as C ints,
    then the year, the month and the day are checked in this order. *)
Definition datetime_date (y m d : Z) : result date :=
  if negb (fits_c_int y && fits_c_int m && fits_c_int d)
  then Raise OverflowError_date
  else if (y <? MINYEAR) || (MAXYEAR <? y) then Raise (ValueError_date Year)
  else if (m <? 1) || (12 <? m) then Raise (ValueError_date Month)
  else if (d <? 1) || (days_in_month y m <? d) then Raise (ValueError_date Day)
  else Return (mkdate y m d).

(** ** [convert_date] *)

Definition convert_date (string : option string) : result (option date) :=
  match string with
  | None => Return None
  | Some EmptyString => Return None
  | Some s =>
      parts <- comprehension int (split "-" s) ;;
      match parts with
      | [year; month; day] =>
          date <- datetime_date year month day ;;
          Return (Some date)
      | _ => Raise (ValueError "Date not in ISO 8601 format.")
      end
  end.

End Tools.

(** ** [main] *)

(** [os.path.basename(p)]: what follows the last slash of [p]. *)
Definition basename (p : string) : string := last (split "/" p) EmptyString.

(** The attributes of the object [parser.parse_args()] returns. *)
Record Namespace := mkNamespace {
  debian : bool;
  ubuntu : bool;
  csv_file : string
}.

(** What a run of [main] does to the outside, in order. *)
Inductive event :=
| PrintUsage (usage : string)
    (* parser.print_usage(sys.stderr), of a parser whose usage, once
       formatted, is this text *)
| StderrWrite (text : string)
    (* text written to sys.stderr *)
| PrintHelp (usage : string)
    (* parser.print_help(), to sys.stdout, of a parser whose usage, once
       formatted, is this text *)
| Validate (csv_file distro : string).
    (* one call validation_function(csv_file, distro) *)

(** [parser.parse_args()] returns the namespace, or ends in the help
    action (-h, --help), or ends in [parser.error(message)] (no csv-file,
    an unknown argument, an argument given to a flag). *)
Inductive parse_outcome :=
| Args (args : Namespace)
| ParserHelp
| ParserError (message : string).

(** [usage % dict(prog=prog)], which argparse computes whenever it prints
    the usage: the text, or the exception the formatting raises. *)
Inductive format_outcome :=
| Formatted (text : string)
| FormatRaises (exception_class : string).

(** How a run of [main] ends. *)
Inductive completion :=
| Returns (value : Z)
| SystemExit (status : Z)
| Uncaught (exception_class : string).

Definition newline : string := String (ascii_of_nat 10) EmptyString.

(** [parser.error(message)]: the usage is formatted and goes to the error
    stream, the message follows, and the process ends with status 2; an
    exception of the formatting leaves before anything is written. *)
Definition parser_error (formatted : format_outcome) (prog message : string)
  : list event * completion :=
  match formatted with
  | Formatted text =>
      ([PrintUsage text;
        StderrWrite (prog ++ ": error: " ++ message ++ newline)],
       SystemExit 2)
  | FormatRaises exception_class => ([], Uncaught exception_class)
  end.

(** The help action: [parser.print_help()], which formats the usage as
    well, and then [parser.exit()], with status 0. *)
Definition parser_help (formatted : format_outcome)
  : list event * completion :=
  match formatted with
  | Formatted text => ([PrintHelp text], SystemExit 0)
  | FormatRaises exception_class => ([], Uncaught exception_class)
  end.

Section Main.

(** [parser.parse_args] of the parser of lines 41 to 59, as a function of
    the arguments after the script's name. *)
Variable parse_args : list string -> parse_outcome.

(** [usage % dict(prog=prog)] as a function of [usage] and [prog]. *)
Variable format_usage : string -> string -> format_outcome.

(** The function given to [main]; its result is read as a truth value. *)
Variable validation_function : string -> string -> bool.

(** [main], for [sys.argv = argv0 :: arguments].  The parser is made with
    the usage of line 40 and, by default, with the script's name as its
    prog. *)
Definition main (argv0 : string) (arguments : list string)
  : list event * completion :=
  let script_name := basename argv0 in
  let usage := script_name ++ " [-h] -d|-u csv-file" in
  let formatted := format_usage usage script_name in
  match parse_args arguments with
  | ParserHelp => parser_help formatted
  | ParserError message => parser_error formatted script_name message
  | Args args =>
      if negb (List.length (filter (fun x => x) [debian args; ubuntu args]) =? 1)%nat
      then parser_error formatted script_name
             "You have to select exactly one of --debian, --ubuntu."
      else
        let distro := if debian args then "debian" else "ubuntu" in
        ([Validate (csv_file args) distro],
         Returns (Z.b2z (negb (validation_function (csv_file args) distro))))
  end.

End Main.

(** ** The vocabulary of the properties *)

(** The three kinds of failure of [convert_date]. *)
Definition format_error : exception :=
  ValueError "Date not in ISO 8601 format.".

Definition is_format_error (e : exception) : Prop := e = format_error.

Definition is_numeric_error (e : exception) : Prop :=
  exists literal, e = ValueError_int literal.

Definition is_calendar_error (e : exception) : Prop :=
  (exists field, e = ValueError_date field) \/ e = OverflowError_date.

(** A date of the proleptic Gregorian calendar between the years 1 and
    9999. *)
Definition valid_calendar_date (y m d : Z) : bool :=
  (1 <=? y) && (y <=? 9999) && (1 <=? m) && (m <=? 12)
  && (1 <=? d) && (d <=? days_in_month y m).

(** The number a text of decimal digits writes. *)
Fixpoint decimal_from (value : Z) (s : string) : Z :=
  match s with
  | EmptyString => value
  | String c s' => decimal_from (10 * value + (code c - 48)) s'
  end.

Definition decimal (s : string) : Z := decimal_from 0 s.

Fixpoint all_digits (s : string) : bool :=
  match s with
  | EmptyString => true
  | String c s' => is_digit c && all_digits s'
  end.

(** [int x] returns. *)
Definition parses_as_int (limit : nat) (x : string) : bool :=
  match int limit x with
  | Return _ => true
  | Raise _ => false
  end.

(** The arguments select exactly one of the two distributions. *)
Definition exactly_one_flag (args : Namespace) : bool :=
  xorb (debian args) (ubuntu args).





(** The three ways in which [convert_date] ends on a string that is not
    empty. *)
Inductive convert_date_run (limit : nat) (s : string)
  : result (option date) -> Prop :=
| run_unparsed (pre : list string) (p : string) (post : list string) :
    split "-" s = (pre ++ p :: post)%list ->
    Forall (fun q => parses_as_int limit q = true) pre ->
    parses_as_int limit p = false ->
    convert_date_run limit s (Raise (ValueError_int p))
| run_count (ns : list Z) :
    Forall2 (fun x n => int limit x = Return n) (split "-" s) ns ->
    List.length ns <> 3%nat ->
    convert_date_run limit s (Raise format_error)
| run_date (a b c : string) (y m d : Z) :
    split "-" s = [a; b; c] ->
    int limit a = Return y -> int limit b = Return m ->
    int limit c = Return d ->
    convert_date_run limit s
      (date <- datetime_date y m d ;; Return (Some date)).

(** * Properties *)

(** ** [split] and [join] *)

Lemma split_not_nil (sep : ascii) (s : string) : split sep s <> [].
Proof.
  destruct s as [|c s]; simpl; [discriminate|].
  destruct (Ascii.eqb c sep); [discriminate|].
  destruct (split sep s); discriminate.
Qed.

Lemma split_without_sep (sep : ascii) (s : string) :
  contains sep s = false -> split sep s = [s].
Proof.
  induction s as [|c s IH]; simpl; intros H; [reflexivity|].
  apply orb_false_iff in H as [Hc Hs].
  rewrite Hc, (IH Hs). reflexivity.
Qed.

Lemma split_app (sep : ascii) (a b : string) :
  contains sep a = false ->
  split sep (a ++ String sep b) = a :: split sep b.
Proof.
  induction a as [|c a IH]; simpl; intros H.
  - rewrite Ascii.eqb_refl. reflexivity.
  - apply orb_false_iff in H as [Hc Ha].
    rewrite Hc, (IH Ha). reflexivity.
Qed.

Lemma split_parts_without_sep (sep : ascii) (s p : string) :
  In p (split sep s) -> contains sep p = false.
Proof.
  revert p. induction s as [|c s IH]; simpl; intros p H.
  - destruct H as [<-|[]]. reflexivity.
  - destruct (Ascii.eqb c sep) eqn:Hc.
    + destruct H as [<-|H]; [reflexivity|auto].
    + destruct (split sep s) as [|q qs] eqn:Hq.
      * destruct H as [<-|[]]. simpl. rewrite Hc. reflexivity.
      * destruct H as [<-|H].
        -- simpl. rewrite Hc. apply IH. left. reflexivity.
        -- apply IH. right. exact H.
Qed.

Lemma join_split (sep : ascii) (s : string) : join sep (split sep s) = s.
Proof.
  induction s as [|c s IH]; simpl; [reflexivity|].
  destruct (Ascii.eqb c sep) eqn:Hc.
  - apply Ascii.eqb_eq in Hc. subst c.
    pose proof (split_not_nil sep s) as Hn.
    destruct (split sep s) as [|q qs]; [contradiction|].
    simpl. f_equal. exact IH.
  - destruct (split sep s) as [|q qs] eqn:Hq.
    + exfalso. exact (split_not_nil sep s Hq).
    + rewrite <- IH. destruct qs; reflexivity.
Qed.

Lemma split_join3 (sep : ascii) (a b c : string) :
  contains sep a = false -> contains sep b = false ->
  contains sep c = false ->
  split sep (a ++ String sep (b ++ String sep c)) = [a; b; c].
Proof.
  intros Ha Hb Hc.
  rewrite (split_app sep a _ Ha), (split_app sep b _ Hb).
  rewrite (split_without_sep sep c Hc). reflexivity.
Qed.

(** ** The comprehension *)

Lemma comprehension_raises {A B : Type} (f : A -> result B) (l : list A) :
  (exists x, In x l /\ exists e, f x = Raise e) ->
  exists x e, In x l /\ f x = Raise e /\ comprehension f l = Raise e.
Proof.
  induction l as [|a l IH]; intros [x [Hin [e He]]]; [destruct Hin|].
  simpl. destruct (f a) as [b|e'] eqn:Ha.
  - destruct Hin as [->|Hin]; [congruence|].
    destruct IH as [x' [e'' [Hin' [Hx' Hc]]]]; [exists x; eauto|].
    exists x', e''. simpl. rewrite Hc. auto.
  - exists a, e'. simpl. auto.
Qed.

Lemma comprehension_returns {A B : Type} (f : A -> result B) (l : list A) :
  (forall x, In x l -> exists y, f x = Return y) ->
  exists ys, comprehension f l = Return ys /\ List.length ys = List.length l.
Proof.
  induction l as [|a l IH]; intros H; simpl.
  - exists []. auto.
  - destruct (H a) as [y Hy]; [left; reflexivity|].
    destruct IH as [ys [Hc Hl]]; [intros x Hx; apply H; right; exact Hx|].
    exists (y :: ys). rewrite Hy, Hc. simpl. auto.
Qed.

(** ** [int] *)

Lemma int_raises (limit : nat) (x : string) (e : exception) :
  int limit x = Raise e -> e = ValueError_int x.
Proof.
  unfold int.
  destruct (skip_spaces (transform_decimal_and_space_to_ascii x)) as [|c s].
  - simpl. intros H. congruence.
  - destruct (Ascii.eqb c "+"); [|destruct (Ascii.eqb c "-")];
      match goal with
      | |- context [scan_digits ?t false 0 0] =>
          destruct (match t with
                    | String c0 _ => Ascii.eqb c0 "_"
                    | EmptyString => false
                    end);
          [congruence|];
          destruct (scan_digits t false 0 0) as [[[v n] r]|]; [|congruence];
          destruct (exceeds_max_str_digits limit n); [congruence|];
          destruct (n =? 0)%nat; [congruence|];
          destruct (is_empty (skip_spaces r)); congruence
      end.
Qed.

Lemma not_parsed_raises (limit : nat) (x : string) :
  parses_as_int limit x = false -> int limit x = Raise (ValueError_int x).
Proof.
  unfold parses_as_int. destruct (int limit x) as [n|e] eqn:H; [discriminate|].
  intros _. f_equal. exact (int_raises limit x e H).
Qed.

Lemma parsed_returns (limit : nat) (x : string) :
  parses_as_int limit x = true -> exists n, int limit x = Return n.
Proof.
  unfold parses_as_int. destruct (int limit x) as [n|e]; [eauto|discriminate].
Qed.

Lemma digit_code (c : ascii) :
  is_digit c = true -> 48 <= code c <= 57.
Proof.
  unfold is_digit, digit_value.
  destruct ((48 <=? code c) && (code c <=? 57)) eqn:H; [|discriminate].
  intros _. apply andb_true_iff in H as [H1 H2]. lia.
Qed.

Lemma digit_value_digit (c : ascii) :
  is_digit c = true -> digit_value c = Some (code c - 48).
Proof.
  unfold is_digit, digit_value.
  destruct ((48 <=? code c) && (code c <=? 57)); [reflexivity|discriminate].
Qed.

Lemma digit_not (c other : ascii) :
  is_digit c = true -> (code other < 48 \/ 57 < code other) ->
  Ascii.eqb c other = false.
Proof.
  intros Hd Ho. apply digit_code in Hd.
  destruct (Ascii.eqb c other) eqn:E; [|reflexivity].
  apply Ascii.eqb_eq in E. subst. lia.
Qed.

Lemma digit_not_space (c : ascii) : is_digit c = true -> is_space c = false.
Proof.
  intros Hd. apply digit_code in Hd. unfold is_space.
  apply orb_false_iff. split.
  - apply andb_false_iff. right. lia.
  - lia.
Qed.

Lemma transform_digits (s : string) :
  all_digits s = true -> transform_decimal_and_space_to_ascii s = s.
Proof.
  induction s as [|c s IH]; simpl; [reflexivity|].
  intros H. apply andb_true_iff in H as [Hc Hs].
  apply digit_code in Hc.
  replace (code c <? 127) with true by lia.
  rewrite (IH Hs). reflexivity.
Qed.

Lemma scan_all_digits (s : string) (value : Z) (digits : nat) :
  all_digits s = true ->
  scan_digits s false value digits
  = Some (decimal_from value s, (digits + String.length s)%nat, EmptyString).
Proof.
  revert value digits. induction s as [|c s IH]; simpl; intros value digits H.
  - rewrite Nat.add_0_r. reflexivity.
  - apply andb_true_iff in H as [Hc Hs].
    rewrite (digit_not c "_" Hc) by (right; vm_compute; reflexivity).
    rewrite (digit_value_digit c Hc), (IH _ _ Hs).
    rewrite Nat.add_succ_r. reflexivity.
Qed.

Lemma int_all_digits (limit : nat) (s : string) :
  all_digits s = true -> s <> EmptyString ->
  (String.length s <= max_str_digits_threshold)%nat ->
  int limit s = Return (decimal s).
Proof.
  intros Hd Hne Hlen. unfold int.
  rewrite (transform_digits s Hd).
  destruct s as [|c s]; [contradiction|].
  pose proof Hd as Hd'. simpl in Hd'.
  apply andb_true_iff in Hd' as [Hc Hs].
  simpl skip_spaces. rewrite (digit_not_space c Hc).
  rewrite (digit_not c "+" Hc) by (left; vm_compute; reflexivity).
  rewrite (digit_not c "-" Hc) by (left; vm_compute; reflexivity).
  rewrite (digit_not c "_" Hc) by (right; vm_compute; reflexivity).
  rewrite (scan_all_digits _ 0 0%nat Hd).
  unfold exceeds_max_str_digits.
  replace (max_str_digits_threshold <? 0 + String.length (String c s))%nat
    with false by (symmetry; apply Nat.ltb_ge; simpl in *; lia).
  simpl. reflexivity.
Qed.

(** ** [datetime.date] *)

Lemma days_in_month_bounds (y m : Z) : 28 <= days_in_month y m <= 31.
Proof.
  unfold days_in_month.
  destruct (m =? 2); [destruct (is_leap y); lia|].
  destruct ((m =? 4) || (m =? 6) || (m =? 9) || (m =? 11)); lia.
Qed.

Lemma datetime_date_valid (y m d : Z) :
  valid_calendar_date y m d = true ->
  datetime_date y m d = Return (mkdate y m d).
Proof.
  unfold valid_calendar_date. intros H.
  repeat (apply andb_true_iff in H as [H ?]).
  pose proof (days_in_month_bounds y m) as Hb.
  unfold datetime_date, fits_c_int, MINYEAR, MAXYEAR.
  replace (- 2 ^ 31 <=? y) with true by lia.
  replace (y <=? 2 ^ 31 - 1) with true by lia.
  replace (- 2 ^ 31 <=? m) with true by lia.
  replace (m <=? 2 ^ 31 - 1) with true by lia.
  replace (- 2 ^ 31 <=? d) with true by lia.
  replace (d <=? 2 ^ 31 - 1) with true by lia.
  replace (y <? 1) with false by lia.
  replace (9999 <? y) with false by lia.
  replace (m <? 1) with false by lia.
  replace (12 <? m) with false by lia.
  replace (d <? 1) with false by lia.
  replace (days_in_month y m <? d) with false by lia.
  reflexivity.
Qed.

Lemma datetime_date_invalid (y m d : Z) :
  valid_calendar_date y m d = false ->
  exists e, datetime_date y m d = Raise e /\ is_calendar_error e.
Proof.
  unfold valid_calendar_date, datetime_date, MINYEAR, MAXYEAR. intros H.
  destruct (negb (fits_c_int y && fits_c_int m && fits_c_int d)).
  { exists OverflowError_date. split; [reflexivity|right; reflexivity]. }
  destruct ((y <? 1) || (9999 <? y)) eqn:Hy.
  { exists (ValueError_date Year). split; [reflexivity|left; eauto]. }
  destruct ((m <? 1) || (12 <? m)) eqn:Hm.
  { exists (ValueError_date Month). split; [reflexivity|left; eauto]. }
  destruct ((d <? 1) || (days_in_month y m <? d)) eqn:Hd.
  { exists (ValueError_date Day). split; [reflexivity|left; eauto]. }
  exfalso.
  apply orb_false_iff in Hy as [? ?].
  apply orb_false_iff in Hm as [? ?].
  apply orb_false_iff in Hd as [? ?].
  replace (1 <=? y) with true in H by lia.
  replace (y <=? 9999) with true in H by lia.
  replace (1 <=? m) with true in H by lia.
  replace (m <=? 12) with true in H by lia.
  replace (1 <=? d) with true in H by lia.
  replace (d <=? days_in_month y m) with true in H by lia.
  discriminate.
Qed.

(** ** [convert_date] *)

Lemma convert_date_nonempty (limit : nat) (s : string) :
  s <> EmptyString ->
  convert_date limit (Some s)
  = (parts <- comprehension (int limit) (split "-" s) ;;
     match parts with
     | [year; month; day] =>
         date <- datetime_date year month day ;; Return (Some date)
     | _ => Raise format_error
     end).
Proof.
  destruct s; [contradiction|reflexivity].
Qed.

(** The first part that is no integer decides the outcome, whatever the
    number of parts. *)
Lemma convert_date_unparsed_part (limit : nat) (s : string) :
  s <> EmptyString ->
  (exists p, In p (split "-" s) /\ parses_as_int limit p = false) ->
  exists p, In p (split "-" s) /\ parses_as_int limit p = false
            /\ convert_date limit (Some s) = Raise (ValueError_int p).
Proof.
  intros Hne [p [Hin Hp]].
  destruct (comprehension_raises (int limit) (split "-" s))
    as [x [e [Hx [He Hc]]]].
  { exists p. split; [exact Hin|]. eexists. apply not_parsed_raises, Hp. }
  exists x. split; [exact Hx|].
  pose proof (int_raises limit x e He) as ->.
  split.
  - unfold parses_as_int. rewrite He. reflexivity.
  - rewrite (convert_date_nonempty limit s Hne), Hc. reflexivity.
Qed.

Lemma numeric_not_format (e : exception) :
  is_numeric_error e -> ~ is_format_error e.
Proof.
  intros [literal ->] H. discriminate H.
Qed.

Lemma comprehension3 (limit : nat) (a b c : string) (y m d : Z) :
  int limit a = Return y -> int limit b = Return m -> int limit c = Return d ->
  comprehension (int limit) [a; b; c] = Return [y; m; d].
Proof.
  intros Ha Hb Hc. simpl. rewrite Ha, Hb, Hc. reflexivity.
Qed.

Lemma string_app_nonempty (a : string) (c : ascii) (b : string) :
  (a ++ String c b)%string <> EmptyString.
Proof.
  destruct a; discriminate.
Qed.

(** C1: a text YYYY-MM-DD of four, two and two decimal digits that writes a
    valid calendar date is converted to the date of that year, month and
    day; in particular "2012-01-15" gives date(2012, 1, 15). *)
Theorem convert_date_iso8601 (limit : nat) :
  (forall yyyy mm dd : string,
      String.length yyyy = 4%nat -> all_digits yyyy = true ->
      String.length mm = 2%nat -> all_digits mm = true ->
      String.length dd = 2%nat -> all_digits dd = true ->
      valid_calendar_date (decimal yyyy) (decimal mm) (decimal dd) = true ->
      convert_date limit (Some (yyyy ++ "-" ++ mm ++ "-" ++ dd))
      = Return (Some (mkdate (decimal yyyy) (decimal mm) (decimal dd))))
  /\ convert_date limit (Some "2012-01-15")
     = Return (Some (mkdate 2012 1 15)).
Proof.
  split; [|reflexivity].
  intros yyyy mm dd Ly Dy Lm Dm Ld Dd Hvalid.
  assert (Hint : forall s, all_digits s = true ->
                   (0 < String.length s <= 4)%nat ->
                   int limit s = Return (decimal s)).
  { intros s Hs Hl. apply int_all_digits; [exact Hs| |].
    - destruct s; [simpl in Hl; lia|discriminate].
    - unfold max_str_digits_threshold. lia. }
  assert (Hdash : forall s, all_digits s = true -> contains "-" s = false).
  { induction s as [|c s IH]; simpl; [reflexivity|].
    intros H. apply andb_true_iff in H as [Hc Hs].
    rewrite (digit_not c "-" Hc) by (left; vm_compute; reflexivity).
    exact (IH Hs). }
  rewrite convert_date_nonempty by apply string_app_nonempty.
  change (yyyy ++ "-" ++ mm ++ "-" ++ dd)%string
    with (yyyy ++ String "-" (mm ++ String "-" dd))%string.
  rewrite split_join3 by auto.
  rewrite (comprehension3 limit yyyy mm dd
             (decimal yyyy) (decimal mm) (decimal dd))
    by (apply Hint; [assumption|lia]).
  simpl. rewrite (datetime_date_valid _ _ _ Hvalid). reflexivity.
Qed.

(** C2: for the absent string and for the empty string the result is None,
    and nothing is raised. *)
Theorem convert_date_empty (limit : nat) :
  convert_date limit None = Return None
  /\ convert_date limit (Some EmptyString) = Return None.
Proof.
  split; reflexivity.
Qed.

(** C3, as amended: a string that is not empty, whose parts between the
    dashes are all integers and are not three in number, fails with the
    format error; in particular "2012-01" does. *)
Theorem convert_date_part_count (limit : nat) :
  (forall s : string,
      s <> EmptyString ->
      (forall p, In p (split "-" s) -> parses_as_int limit p = true) ->
      List.length (split "-" s) <> 3%nat ->
      convert_date limit (Some s)
      = Raise (ValueError "Date not in ISO 8601 format."))
  /\ convert_date limit (Some "2012-01")
     = Raise (ValueError "Date not in ISO 8601 format.").
Proof.
  split; [|reflexivity].
  intros s Hne Hall Hlen.
  destruct (comprehension_returns (int limit) (split "-" s))
    as [ns [Hc Hl]].
  { intros x Hx. apply parsed_returns, Hall, Hx. }
  rewrite (convert_date_nonempty limit s Hne), Hc. simpl.
  rewrite <- Hl in Hlen.
  destruct ns as [|y [|m [|d [|x ns]]]]; try reflexivity.
  simpl in Hlen. lia.
Qed.

(** C4: a string that is not empty and has a part between the dashes that
    is no integer fails with the error of the integer conversion; in
    particular "2012-01-ab" does. *)
Theorem convert_date_numeric_error (limit : nat) :
  (forall s : string,
      s <> EmptyString ->
      (exists p, In p (split "-" s) /\ parses_as_int limit p = false) ->
      exists e, convert_date limit (Some s) = Raise e /\ is_numeric_error e)
  /\ convert_date limit (Some "2012-01-ab") = Raise (ValueError_int "ab").
Proof.
  split; [|reflexivity].
  intros s Hne Hp.
  destruct (convert_date_unparsed_part limit s Hne Hp) as [p [_ [_ H]]].
  exists (ValueError_int p). split; [exact H|]. exists p. reflexivity.
Qed.

(** C5: a string of exactly three integer parts that are no valid calendar
    date fails with an error of the date constructor; in particular
    "2012-15-01" fails on its month. *)
Theorem convert_date_calendar_error (limit : nat) :
  (forall (s a b c : string) (y m d : Z),
      s <> EmptyString ->
      split "-" s = [a; b; c] ->
      int limit a = Return y -> int limit b = Return m ->
      int limit c = Return d ->
      valid_calendar_date y m d = false ->
      exists e, convert_date limit (Some s) = Raise e
                /\ is_calendar_error e
                /\ datetime_date y m d = Raise e)
  /\ convert_date limit (Some "2012-15-01") = Raise (ValueError_date Month).
Proof.
  split; [|reflexivity].
  intros s a b c y m d Hne Hs Ha Hb Hc Hinvalid.
  destruct (datetime_date_invalid y m d Hinvalid) as [e [He Hcal]].
  exists e. split; [|split; assumption].
  rewrite (convert_date_nonempty limit s Hne), Hs.
  rewrite (comprehension3 limit a b c y m d Ha Hb Hc).
  simpl. rewrite He. reflexivity.
Qed.

(** C9: the parts are converted before they are counted: a string that is
    not empty, has a part that is no integer and has a number of parts
    other than three fails with the error of the integer conversion and
    not with the format error; so does "2012-ab", and so does every string
    that starts with a dash. *)
Theorem convert_date_numeric_before_format (limit : nat) :
  (forall s : string,
      s <> EmptyString ->
      List.length (split "-" s) <> 3%nat ->
      (exists p, In p (split "-" s) /\ parses_as_int limit p = false) ->
      exists e, convert_date limit (Some s) = Raise e
                /\ is_numeric_error e /\ ~ is_format_error e)
  /\ convert_date limit (Some "2012-ab") = Raise (ValueError_int "ab")
  /\ (forall s : string,
         convert_date limit (Some (String "-" s))
         = Raise (ValueError_int EmptyString)).
Proof.
  split; [|split; [reflexivity|]].
  - intros s Hne _ Hp.
    destruct (convert_date_unparsed_part limit s Hne Hp) as [p [_ [_ H]]].
    assert (Hnum : is_numeric_error (ValueError_int p))
      by (exists p; reflexivity).
    exists (ValueError_int p).
    split; [exact H|]. split; [exact Hnum|].
    apply numeric_not_format, Hnum.
  - intros s. reflexivity.
Qed.

(** C10: three parts without a dash that [int] reads as the year, month
    and day of a valid calendar date are converted to that date, whatever
    their spelling: "2012-1-5" without the zeros, " 2012-+1-5" with a
    leading space and a plus sign. *)
Theorem convert_date_lenient (limit : nat) :
  (forall (a b c : string) (y m d : Z),
      contains "-" a = false -> contains "-" b = false ->
      contains "-" c = false ->
      int limit a = Return y -> int limit b = Return m ->
      int limit c = Return d ->
      valid_calendar_date y m d = true ->
      convert_date limit (Some (a ++ "-" ++ b ++ "-" ++ c))
      = Return (Some (mkdate y m d)))
  /\ convert_date limit (Some "2012-1-5") = Return (Some (mkdate 2012 1 5))
  /\ convert_date limit (Some " 2012-+1-5") = Return (Some (mkdate 2012 1 5)).
Proof.
  split; [|split; reflexivity].
  intros a b c y m d Da Db Dc Ha Hb Hc Hvalid.
  rewrite convert_date_nonempty by apply string_app_nonempty.
  change (a ++ "-" ++ b ++ "-" ++ c)%string
    with (a ++ String "-" (b ++ String "-" c))%string.
  rewrite split_join3 by assumption.
  rewrite (comprehension3 limit a b c y m d Ha Hb Hc).
  simpl. rewrite (datetime_date_valid _ _ _ Hvalid). reflexivity.
Qed.

(** ** [main] *)


Section MainProperties.

Variable parse_args : list string -> parse_outcome.
Variable format_usage : string -> string -> format_outcome.
Variable validation_function : string -> string -> bool.

Lemma one_flag_count (args : Namespace) :
  (List.length (filter (fun x => x) [debian args; ubuntu args]) =? 1)%nat
  = exactly_one_flag args.
Proof.
  unfold exactly_one_flag.
  destruct (debian args), (ubuntu args); reflexivity.
Qed.

Lemma main_one_flag (argv0 : string) (arguments : list string)
      (args : Namespace) :
  parse_args arguments = Args args ->
  exactly_one_flag args = true ->
  main parse_args format_usage validation_function argv0 arguments
  = (let distro := if debian args then "debian" else "ubuntu" in
     ([Validate (csv_file args) distro],
      Returns (Z.b2z (negb (validation_function (csv_file args) distro))))).
Proof.
  intros Hp Hone. unfold main. rewrite Hp, one_flag_count, Hone. reflexivity.
Qed.



(** C7: with exactly one flag set, the validation function is called once,
    with the file of the command line and a label the flag decides:
    "debian" for the Debian flag, "ubuntu" for the Ubuntu flag; and no run
    of [main] passes any other label. *)
Theorem main_distro_label :
  (forall (argv0 : string) (arguments : list string) (args : Namespace),
      parse_args arguments = Args args ->
      exactly_one_flag args = true ->
      exists distro,
        fst (main parse_args format_usage validation_function argv0 arguments)
        = [Validate (csv_file args) distro]
        /\ (debian args = true -> distro = "debian")
        /\ (ubuntu args = true -> distro = "ubuntu"))
  /\ (forall (argv0 : string) (arguments : list string) (csv distro : string),
         In (Validate csv distro)
            (fst (main parse_args format_usage validation_function
                       argv0 arguments)) ->
         distro = "debian" \/ distro = "ubuntu").
Proof.
  split.
  - intros argv0 arguments args Hp Hone.
    rewrite (main_one_flag argv0 arguments args Hp Hone). simpl.
    eexists. split; [reflexivity|].
    unfold exactly_one_flag in Hone.
    destruct (debian args), (ubuntu args); try discriminate Hone;
      split; intros H; try reflexivity; discriminate H.
  - intros argv0 arguments csv distro. unfold main, parser_error, parser_help.
    destruct (parse_args arguments) as [args| |message].
    + destruct (negb _).
      * destruct (format_usage _ _); simpl.
        -- intros [H|[H|[]]]; discriminate H.
        -- intros [].
      * simpl. intros [H|[]]. injection H as _ <-.
        destruct (debian args); auto.
    + destruct (format_usage _ _); simpl.
      * intros [H|[]]. discriminate H.
      * intros [].
    + destruct (format_usage _ _); simpl.
      * intros [H|[H|[]]]; discriminate H.
      * intros [].
Qed.

(** C8: with exactly one flag set and the file given, [main] returns 0
    when the validation function returns true and 1 when it returns
    false. *)
Theorem main_exit_code (argv0 : string) (arguments : list string)
        (args : Namespace) :
  parse_args arguments = Args args ->
  exactly_one_flag args = true ->
  let distro := if debian args then "debian" else "ubuntu" in
  (validation_function (csv_file args) distro = true ->
   snd (main parse_args format_usage validation_function argv0 arguments)
   = Returns 0)
  /\ (validation_function (csv_file args) distro = false ->
      snd (main parse_args format_usage validation_function argv0 arguments)
      = Returns 1).
Proof.
  intros Hp Hone distro.
  rewrite (main_one_flag argv0 arguments args Hp Hone). simpl.
  fold distro. split; intros ->; reflexivity.
Qed.

End MainProperties.

(** ** The properties at concrete inputs

    The limit on the digits is the default one, 4300. *)

(** The leap day of the year 2000. *)
Lemma convert_date_iso8601_leap_day :
  (all_digits "2000" = true /\ all_digits "02" = true
   /\ all_digits "29" = true
   /\ valid_calendar_date (decimal "2000") (decimal "02") (decimal "29")
      = true)
  /\ convert_date 4300 (Some "2000-02-29")
     = Return (Some (mkdate 2000 2 29)).
Proof.
  split; [repeat split|].
  exact (proj1 (convert_date_iso8601 4300) "2000" "02" "29"
               eq_refl eq_refl eq_refl eq_refl eq_refl eq_refl eq_refl).
Defined.

(** "2012-ab" has two parts, and yet fails in the integer conversion and
    not with the format error. *)
Lemma convert_date_part_count_not_format :
  "2012-ab" <> EmptyString
  /\ List.length (split "-" "2012-ab") = 2%nat
  /\ convert_date 4300 (Some "2012-ab") = Raise (ValueError_int "ab")
  /\ ~ (forall s : string,
           s <> EmptyString ->
           List.length (split "-" s) <> 3%nat ->
           convert_date 4300 (Some s)
           = Raise (ValueError "Date not in ISO 8601 format.")).
Proof.
  split; [discriminate|]. split; [reflexivity|]. split; [reflexivity|].
  intros H. specialize (H "2012-ab").
  assert (Hne : "2012-ab" <> EmptyString) by discriminate.
  assert (Hlen : List.length (split "-" "2012-ab") <> 3%nat)
    by (simpl; discriminate).
  specialize (H Hne Hlen). discriminate H.
Defined.

(** Four integer parts. *)
Lemma convert_date_part_count_four :
  ("2012-01-15-07" <> EmptyString
   /\ (forall p, In p (split "-" "2012-01-15-07") ->
                 parses_as_int 4300 p = true)
   /\ List.length (split "-" "2012-01-15-07") <> 3%nat)
  /\ convert_date 4300 (Some "2012-01-15-07")
     = Raise (ValueError "Date not in ISO 8601 format.").
Proof.
  assert (Hne : "2012-01-15-07" <> EmptyString) by discriminate.
  assert (Hall : forall p, In p (split "-" "2012-01-15-07") ->
                           parses_as_int 4300 p = true).
  { simpl. intros p [<-|[<-|[<-|[<-|[]]]]]; reflexivity. }
  assert (Hlen : List.length (split "-" "2012-01-15-07") <> 3%nat)
    by (simpl; discriminate).
  split; [repeat split; assumption|].
  exact (proj1 (convert_date_part_count 4300) "2012-01-15-07" Hne Hall Hlen).
Defined.

(** A letter in the year. *)
Lemma convert_date_numeric_error_year :
  ("20x2-01-15" <> EmptyString
   /\ In "20x2" (split "-" "20x2-01-15")
   /\ parses_as_int 4300 "20x2" = false)
  /\ exists e, convert_date 4300 (Some "20x2-01-15") = Raise e
               /\ is_numeric_error e.
Proof.
  assert (Hne : "20x2-01-15" <> EmptyString) by discriminate.
  assert (Hin : In "20x2" (split "-" "20x2-01-15"))
    by (simpl; left; reflexivity).
  assert (Hp : parses_as_int 4300 "20x2" = false) by reflexivity.
  split; [repeat split; assumption|].
  exact (proj1 (convert_date_numeric_error 4300) "20x2-01-15" Hne
               (ex_intro _ "20x2" (conj Hin Hp))).
Defined.

(** The 29th of February of a year that is no leap year. *)
Lemma convert_date_calendar_error_2011 :
  ("2011-02-29" <> EmptyString
   /\ split "-" "2011-02-29" = ["2011"; "02"; "29"]
   /\ int 4300 "2011" = Return 2011 /\ int 4300 "02" = Return 2
   /\ int 4300 "29" = Return 29
   /\ valid_calendar_date 2011 2 29 = false)
  /\ exists e, convert_date 4300 (Some "2011-02-29") = Raise e
               /\ is_calendar_error e
               /\ datetime_date 2011 2 29 = Raise e.
Proof.
  assert (Hne : "2011-02-29" <> EmptyString) by discriminate.
  split; [repeat split; try reflexivity; assumption|].
  exact (proj1 (convert_date_calendar_error 4300)
               "2011-02-29" "2011" "02" "29" 2011 2 29
               Hne eq_refl eq_refl eq_refl eq_refl eq_refl).
Defined.

(** A leading dash in front of a date: four parts, the first one empty. *)
Lemma convert_date_numeric_before_format_leading_dash :
  ("-2012-01-15" <> EmptyString
   /\ List.length (split "-" "-2012-01-15") <> 3%nat
   /\ In EmptyString (split "-" "-2012-01-15")
   /\ parses_as_int 4300 EmptyString = false)
  /\ exists e, convert_date 4300 (Some "-2012-01-15") = Raise e
               /\ is_numeric_error e /\ ~ is_format_error e.
Proof.
  assert (Hne : "-2012-01-15" <> EmptyString) by discriminate.
  assert (Hlen : List.length (split "-" "-2012-01-15") <> 3%nat)
    by (simpl; discriminate).
  assert (Hin : In EmptyString (split "-" "-2012-01-15"))
    by (simpl; left; reflexivity).
  assert (Hp : parses_as_int 4300 EmptyString = false) by reflexivity.
  split; [repeat split; assumption|].
  exact (proj1 (convert_date_numeric_before_format 4300) "-2012-01-15"
               Hne Hlen (ex_intro _ EmptyString (conj Hin Hp))).
Defined.

(** An underscore in the year, a space after the month, a plus sign
    before the day. *)
Lemma convert_date_lenient_spellings :
  (contains "-" "2_012" = false /\ contains "-" "7 " = false
   /\ contains "-" "+31" = false
   /\ int 4300 "2_012" = Return 2012 /\ int 4300 "7 " = Return 7
   /\ int 4300 "+31" = Return 31
   /\ valid_calendar_date 2012 7 31 = true)
  /\ convert_date 4300 (Some "2_012-7 -+31")
     = Return (Some (mkdate 2012 7 31)).
Proof.
  split; [repeat split|].
  exact (proj1 (convert_date_lenient 4300) "2_012" "7 " "+31" 2012 7 31
               eq_refl eq_refl eq_refl eq_refl eq_refl eq_refl eq_refl).
Defined.



(** The Ubuntu flag alone. *)
Lemma main_distro_label_ubuntu :
  exactly_one_flag (mkNamespace false true "ubuntu.csv") = true
  /\ fst (main (fun _ => Args (mkNamespace false true "ubuntu.csv"))
               (fun usage _ => Formatted usage)
               (fun _ _ => true)
               "./validate-csv-data" ["-u"; "ubuntu.csv"])
     = [Validate "ubuntu.csv" "ubuntu"].
Proof.
  split; [reflexivity|].
  destruct (proj1 (main_distro_label
                     (fun _ => Args (mkNamespace false true "ubuntu.csv"))
                     (fun usage _ => Formatted usage)
                     (fun _ _ => true))
                  "./validate-csv-data" ["-u"; "ubuntu.csv"]
                  (mkNamespace false true "ubuntu.csv") eq_refl eq_refl)
    as [distro [Htrace [_ Hubuntu]]].
  rewrite Htrace, (Hubuntu eq_refl). reflexivity.
Defined.

(** The Debian flag alone, and a validation function that accepts the
    files of Debian only. *)
Lemma main_exit_code_debian :
  exactly_one_flag (mkNamespace true false "debian.csv") = true
  /\ snd (main (fun _ => Args (mkNamespace true false "debian.csv"))
               (fun usage _ => Formatted usage)
               (fun _ distro => String.eqb distro "debian")
               "./validate-csv-data" ["-d"; "debian.csv"])
     = Returns 0.
Proof.
  split; [reflexivity|].
  exact (proj1 (main_exit_code
                  (fun _ => Args (mkNamespace true false "debian.csv"))
                  (fun usage _ => Formatted usage)
                  (fun _ distro => String.eqb distro "debian")
                  "./validate-csv-data" ["-d"; "debian.csv"]
                  (mkNamespace true false "debian.csv") eq_refl eq_refl)
               eq_refl).
Defined.

(** * Further properties of [convert_date] *)

(** ** What a comprehension that ended says about its elements *)

Lemma comprehension_return_inv {A B : Type} (f : A -> result B)
      (l : list A) (ys : list B) :
  comprehension f l = Return ys ->
  Forall2 (fun x y => f x = Return y) l ys.
Proof.
  revert ys. induction l as [|a l IH]; simpl; intros ys H.
  - injection H as <-. constructor.
  - destruct (f a) as [b|e] eqn:Ha; [|discriminate H]. simpl in H.
    destruct (comprehension f l) as [bs|e]; [|discriminate H].
    simpl in H. injection H as <-. constructor; [exact Ha|].
    apply IH. reflexivity.
Qed.

Lemma comprehension_raise_inv {A B : Type} (f : A -> result B)
      (l : list A) (e : exception) :
  comprehension f l = Raise e ->
  exists pre x post,
    l = (pre ++ x :: post)%list
    /\ Forall (fun p => exists y, f p = Return y) pre
    /\ f x = Raise e.
Proof.
  induction l as [|a l IH]; simpl; intros H; [discriminate H|].
  destruct (f a) as [b|e'] eqn:Ha.
  - simpl in H. destruct (comprehension f l) as [bs|e''] eqn:Hl;
      [discriminate H|].
    simpl in H. injection H as ->.
    destruct (IH eq_refl) as [pre [x [post [Hl' [Hpre Hx]]]]].
    exists (a :: pre), x, post. subst l. split; [reflexivity|].
    split; [constructor; eauto|exact Hx].
  - simpl in H. injection H as ->.
    exists [], a, l. split; [reflexivity|]. split; [constructor|exact Ha].
Qed.

Lemma comprehension_first_raise {A B : Type} (f : A -> result B)
      (pre : list A) (x : A) (post : list A) (e : exception) :
  Forall (fun p => exists y, f p = Return y) pre ->
  f x = Raise e ->
  comprehension f (pre ++ x :: post) = Raise e.
Proof.
  intros Hpre Hx. induction Hpre as [|a pre [y Hy] _ IH]; simpl.
  - rewrite Hx. reflexivity.
  - rewrite Hy. simpl. rewrite IH. reflexivity.
Qed.

Lemma datetime_date_returns (y m d : Z) (dt : date) :
  datetime_date y m d = Return dt ->
  dt = mkdate y m d /\ valid_calendar_date y m d = true.
Proof.
  intros H. destruct (valid_calendar_date y m d) eqn:Hv.
  - rewrite (datetime_date_valid y m d Hv) in H. injection H as <-. auto.
  - destruct (datetime_date_invalid y m d Hv) as [e [He _]]. congruence.
Qed.

Lemma datetime_date_raises (y m d : Z) (e : exception) :
  datetime_date y m d = Raise e ->
  is_calendar_error e /\ valid_calendar_date y m d = false.
Proof.
  intros H. destruct (valid_calendar_date y m d) eqn:Hv.
  - rewrite (datetime_date_valid y m d Hv) in H. discriminate H.
  - destruct (datetime_date_invalid y m d Hv) as [e' [He Hc]].
    split; [|reflexivity]. congruence.
Qed.

Lemma convert_date_run_complete (limit : nat) (s : string) :
  s <> EmptyString -> convert_date_run limit s (convert_date limit (Some s)).
Proof.
  intros Hne. rewrite (convert_date_nonempty limit s Hne).
  destruct (comprehension (int limit) (split "-" s)) as [ns|e] eqn:Hc.
  - pose proof (comprehension_return_inv _ _ _ Hc) as Hall. simpl.
    destruct ns as [|y [|m [|d [|x ns]]]];
      try (apply (run_count limit s _ Hall); simpl; lia).
    inversion Hall as [|a ? l1 ? Ha H1]; subst.
    inversion H1 as [|b ? l2 ? Hb H2]; subst.
    inversion H2 as [|c ? l3 ? Hc' H3]; subst.
    inversion H3; subst.
    apply (run_date limit s a b c y m d); auto.
  - destruct (comprehension_raise_inv _ _ _ Hc)
      as [pre [x [post [Hs [Hpre Hx]]]]].
    pose proof (int_raises limit x e Hx) as ->. simpl.
    apply (run_unparsed limit s pre x post Hs).
    + eapply Forall_impl; [|exact Hpre].
      intros q [n Hq]. unfold parses_as_int. rewrite Hq. reflexivity.
    + unfold parses_as_int. rewrite Hx. reflexivity.
Qed.

(** ** The results of [convert_date] *)

(** X1: None is the result for the absent and the empty string only: a
    string that is not empty gives a date or an exception. *)
Theorem convert_date_none_only_empty (limit : nat) (x : option string) :
  convert_date limit x = Return None ->
  x = None \/ x = Some EmptyString.
Proof.
  destruct x as [s|]; [|auto].
  destruct s as [|c s]; [auto|].
  intros H. exfalso.
  assert (Hne : String c s <> EmptyString) by discriminate.
  pose proof (convert_date_run_complete limit _ Hne) as Hrun.
  rewrite H in Hrun. inversion Hrun as [| |a b c0 y m d Hs Ha Hb Hc Hr].
  destruct (datetime_date y m d); discriminate Hr.
Qed.

(** X2: a date that [convert_date] returns is a valid calendar date: its
    year is between 1 and 9999, its month between 1 and 12, and its day
    is a day of that month in that year. *)
Theorem convert_date_returns_valid_date (limit : nat) (x : option string)
        (dt : date) :
  convert_date limit x = Return (Some dt) ->
  valid_calendar_date (year dt) (month dt) (day dt) = true
  /\ 1 <= year dt <= 9999 /\ 1 <= month dt <= 12 /\ 1 <= day dt <= 31.
Proof.
  intros H.
  assert (Hv : valid_calendar_date (year dt) (month dt) (day dt) = true).
  { destruct x as [s|]; [|discriminate H].
    destruct s as [|c s]; [discriminate H|].
    assert (Hne : String c s <> EmptyString) by discriminate.
    pose proof (convert_date_run_complete limit _ Hne) as Hrun.
    rewrite H in Hrun. inversion Hrun as [| |a b c0 y m d Hs Ha Hb Hc Hr].
    destruct (datetime_date y m d) as [dt'|e] eqn:Hd; [|discriminate Hr].
    simpl in Hr. injection Hr as ->.
    destruct (datetime_date_returns y m d dt Hd) as [-> Hv]. exact Hv. }
  split; [exact Hv|].
  pose proof (days_in_month_bounds (year dt) (month dt)) as Hb.
  unfold valid_calendar_date in Hv.
  repeat (apply andb_true_iff in Hv as [Hv ?]). lia.
Qed.

(** X3: a string that [convert_date] converts to a date has exactly two
    dashes: it is three parts without a dash, joined by dashes, and [int]
    reads the parts as the year, the month and the day of the date. *)
Theorem convert_date_success_shape (limit : nat) (s : string) (dt : date) :
  convert_date limit (Some s) = Return (Some dt) ->
  exists a b c : string,
    s = (a ++ "-" ++ b ++ "-" ++ c)%string
    /\ contains "-" a = false /\ contains "-" b = false
    /\ contains "-" c = false
    /\ int limit a = Return (year dt) /\ int limit b = Return (month dt)
    /\ int limit c = Return (day dt).
Proof.
  intros H.
  destruct s as [|c0 s0]; [discriminate H|].
  assert (Hne : String c0 s0 <> EmptyString) by discriminate.
  pose proof (convert_date_run_complete limit _ Hne) as Hrun.
  rewrite H in Hrun. inversion Hrun as [| |a b c y m d Hs Ha Hb Hc Hr].
  destruct (datetime_date y m d) as [dt'|e] eqn:Hd; [|discriminate Hr].
  simpl in Hr. injection Hr as ->.
  destruct (datetime_date_returns y m d dt Hd) as [-> _]. simpl.
  exists a, b, c.
  split.
  { rewrite <- (join_split "-" (String c0 s0)), Hs. reflexivity. }
  repeat split; try assumption;
    apply (split_parts_without_sep "-" (String c0 s0)); rewrite Hs; simpl;
    auto.
Qed.

(** X4: [convert_date] raises nothing but its three kinds of error: the
    error of the integer conversion, the format error and the error of
    the date constructor. *)
Theorem convert_date_error_taxonomy (limit : nat) (x : option string)
        (e : exception) :
  convert_date limit x = Raise e ->
  is_numeric_error e \/ is_format_error e \/ is_calendar_error e.
Proof.
  intros H.
  destruct x as [s|]; [|discriminate H].
  destruct s as [|c s]; [discriminate H|].
  assert (Hne : String c s <> EmptyString) by discriminate.
  pose proof (convert_date_run_complete limit _ Hne) as Hrun.
  rewrite H in Hrun.
  inversion Hrun as [pre p post Hs Hpre Hp He|ns Hall Hlen He
                     |a b c0 y m d Hs Ha Hb Hc Hr].
  - left. exists p. reflexivity.
  - right. left. reflexivity.
  - right. right.
    destruct (datetime_date y m d) as [dt|e'] eqn:Hd; [discriminate Hr|].
    simpl in Hr. injection Hr as ->.
    exact (proj1 (datetime_date_raises y m d e Hd)).
Qed.

(** X5: the parts are converted from left to right: when the parts before
    a part are integers and the part is not, the error of the integer
    conversion names that part, whatever follows it. *)
Theorem convert_date_first_unparsed_part (limit : nat) (s : string)
        (pre : list string) (p : string) (post : list string) :
  s <> EmptyString ->
  split "-" s = (pre ++ p :: post)%list ->
  Forall (fun q => parses_as_int limit q = true) pre ->
  parses_as_int limit p = false ->
  convert_date limit (Some s) = Raise (ValueError_int p).
Proof.
  intros Hne Hs Hpre Hp.
  rewrite (convert_date_nonempty limit s Hne), Hs.
  rewrite (comprehension_first_raise (int limit) pre p post
             (ValueError_int p)).
  - reflexivity.
  - eapply Forall_impl; [|exact Hpre]. intros q Hq.
    apply parsed_returns, Hq.
  - apply not_parsed_raises, Hp.
Qed.

(** X6: the format error is raised only for a string whose parts are all
    integers and are not three in number. *)
Theorem convert_date_format_error_only (limit : nat) (s : string) :
  convert_date limit (Some s)
  = Raise (ValueError "Date not in ISO 8601 format.") ->
  (forall p, In p (split "-" s) -> parses_as_int limit p = true)
  /\ List.length (split "-" s) <> 3%nat.
Proof.
  intros H.
  destruct s as [|c0 s0]; [discriminate H|].
  assert (Hne : String c0 s0 <> EmptyString) by discriminate.
  pose proof (convert_date_run_complete limit _ Hne) as Hrun.
  rewrite H in Hrun.
  inversion Hrun as [|ns Hall Hlen He|a b c y m d Hs Ha Hb Hc Hr].
  - split.
    + intros p Hin. clear - Hall Hin.
      induction Hall as [|q n l ns Hq _ IH]; [destruct Hin|].
      destruct Hin as [->|Hin]; [|exact (IH Hin)].
      unfold parses_as_int. rewrite Hq. reflexivity.
    + rewrite (Forall2_length Hall). exact Hlen.
  - exfalso. destruct (datetime_date y m d) as [dt|e'] eqn:Hd;
      [discriminate Hr|].
    simpl in Hr. injection Hr as He'.
    destruct (proj1 (datetime_date_raises y m d _ Hd)) as [[f Hf]|Hf];
      congruence.
Qed.

(** X7: an error of the date constructor leaves [convert_date] only for a
    string of exactly three integer parts that are no valid calendar
    date, and it is the error the constructor raises for them. *)
Theorem convert_date_calendar_error_only (limit : nat) (s : string)
        (e : exception) :
  convert_date limit (Some s) = Raise e ->
  is_calendar_error e ->
  exists (a b c : string) (y m d : Z),
    split "-" s = [a; b; c]
    /\ int limit a = Return y /\ int limit b = Return m
    /\ int limit c = Return d
    /\ valid_calendar_date y m d = false
    /\ datetime_date y m d = Raise e.
Proof.
  intros H Hcal.
  destruct s as [|c0 s0]; [discriminate H|].
  assert (Hne : String c0 s0 <> EmptyString) by discriminate.
  pose proof (convert_date_run_complete limit _ Hne) as Hrun.
  rewrite H in Hrun.
  inversion Hrun as [pre p post Hs Hpre Hp He|ns Hall Hlen He
                     |a b c y m d Hs Ha Hb Hc Hr].
  - exfalso. subst e. destruct Hcal as [[f Hf]|Hf]; discriminate Hf.
  - exfalso. subst e. destruct Hcal as [[f Hf]|Hf]; discriminate Hf.
  - destruct (datetime_date y m d) as [dt|e'] eqn:Hd; [discriminate Hr|].
    simpl in Hr. injection Hr as ->.
    exists a, b, c, y, m, d.
    repeat split; try assumption.
    exact (proj2 (datetime_date_raises y m d e Hd)).
Qed.

(** ** A dash is never a sign *)







(** * Further properties of [main] *)





Lemma basename_without_slash (p : string) : contains "/" (basename p) = false.
Proof.
  unfold basename. apply (split_parts_without_sep "/" p).
  pose proof (split_not_nil "/" p) as Hn.
  destruct (split "/" p) as [|q qs]; [contradiction|].
  clear Hn. revert q. induction qs as [|r qs IH]; intros q.
  - left. reflexivity.
  - right. exact (IH r).
Qed.

Section MoreMainProperties.

Variable parse_args : list string -> parse_outcome.
Variable format_usage : string -> string -> format_outcome.
Variable validation_function : string -> string -> bool.

(** X9: [main] returns, rather than ending the process, only when the
    command line was parsed with exactly one of the two flags set; what it
    returns is then 0 or 1, after one call of the validation function with
    the file of the command line. *)
Theorem main_returns_only_one_flag (argv0 : string)
        (arguments : list string) (v : Z) :
  snd (main parse_args format_usage validation_function argv0 arguments)
  = Returns v ->
  exists args,
    parse_args arguments = Args args
    /\ exactly_one_flag args = true
    /\ (v = 0 \/ v = 1)
    /\ fst (main parse_args format_usage validation_function argv0 arguments)
       = [Validate (csv_file args) (if debian args then "debian" else "ubuntu")].
Proof.
  unfold main, parser_error, parser_help.
  destruct (parse_args arguments) as [args| |message];
    [|destruct (format_usage _ _); simpl; discriminate
     |destruct (format_usage _ _); simpl; discriminate].
  rewrite one_flag_count.
  destruct (exactly_one_flag args) eqn:Hone; simpl;
    [|destruct (format_usage _ _); simpl; discriminate].
  intros H. injection H as <-. exists args.
  split; [reflexivity|]. split; [exact Hone|]. split; [|reflexivity].
  destruct (validation_function (csv_file args)
              (if debian args then "debian" else "ubuntu")); simpl; auto.
Qed.



End MoreMainProperties.

(** ** The spelling of the parts *)

Lemma three_parts_nonempty (s a b c : string) :
  split "-" s = [a; b; c] -> s <> EmptyString.
Proof.
  intros H ->. discriminate H.
Qed.

(** X12: the result depends on the numbers the three parts write and not
    on how they are written: two strings of three parts that [int] reads
    as the same three numbers are converted alike, to the same date or to
    the same error. *)
Theorem convert_date_spelling_independent (limit : nat)
        (s1 a1 b1 c1 s2 a2 b2 c2 : string) (y m d : Z) :
  split "-" s1 = [a1; b1; c1] -> split "-" s2 = [a2; b2; c2] ->
  int limit a1 = Return y -> int limit a2 = Return y ->
  int limit b1 = Return m -> int limit b2 = Return m ->
  int limit c1 = Return d -> int limit c2 = Return d ->
  convert_date limit (Some s1) = convert_date limit (Some s2).
Proof.
  intros H1 H2 Ha1 Ha2 Hb1 Hb2 Hc1 Hc2.
  rewrite (convert_date_nonempty limit s1 (three_parts_nonempty _ _ _ _ H1)).
  rewrite (convert_date_nonempty limit s2 (three_parts_nonempty _ _ _ _ H2)).
  rewrite H1, H2.
  rewrite (comprehension3 limit a1 b1 c1 y m d Ha1 Hb1 Hc1).
  rewrite (comprehension3 limit a2 b2 c2 y m d Ha2 Hb2 Hc2).
  reflexivity.
Qed.

(** * The further properties at concrete inputs *)

Lemma convert_date_none_only_empty_at_empty :
  convert_date 4300 (Some EmptyString) = Return None
  /\ (Some EmptyString = None \/ Some EmptyString = Some EmptyString).
Proof.
  split; [reflexivity|].
  exact (convert_date_none_only_empty 4300 (Some EmptyString) eq_refl).
Defined.

Lemma convert_date_returns_valid_date_2024 :
  convert_date 4300 (Some "2024-02-29") = Return (Some (mkdate 2024 2 29))
  /\ valid_calendar_date 2024 2 29 = true
  /\ 1 <= 2024 <= 9999 /\ 1 <= 2 <= 12 /\ 1 <= 29 <= 31.
Proof.
  split; [reflexivity|].
  exact (convert_date_returns_valid_date 4300 (Some "2024-02-29")
           (mkdate 2024 2 29) eq_refl).
Defined.

Lemma convert_date_success_shape_short :
  convert_date 4300 (Some "2012-1-5") = Return (Some (mkdate 2012 1 5))
  /\ exists a b c : string,
      "2012-1-5" = (a ++ "-" ++ b ++ "-" ++ c)%string
      /\ contains "-" a = false /\ contains "-" b = false
      /\ contains "-" c = false
      /\ int 4300 a = Return 2012 /\ int 4300 b = Return 1
      /\ int 4300 c = Return 5.
Proof.
  split; [reflexivity|].
  exact (convert_date_success_shape 4300 "2012-1-5" (mkdate 2012 1 5)
           eq_refl).
Defined.

Lemma convert_date_error_taxonomy_month :
  convert_date 4300 (Some "2012-13-01") = Raise (ValueError_date Month)
  /\ (is_numeric_error (ValueError_date Month)
      \/ is_format_error (ValueError_date Month)
      \/ is_calendar_error (ValueError_date Month)).
Proof.
  split; [reflexivity|].
  exact (convert_date_error_taxonomy 4300 (Some "2012-13-01")
           (ValueError_date Month) eq_refl).
Defined.

Lemma convert_date_first_unparsed_part_month :
  ("2012-xx-yy" <> EmptyString
   /\ split "-" "2012-xx-yy" = (["2012"] ++ "xx" :: ["yy"])%list
   /\ Forall (fun q => parses_as_int 4300 q = true) ["2012"]
   /\ parses_as_int 4300 "xx" = false)
  /\ convert_date 4300 (Some "2012-xx-yy") = Raise (ValueError_int "xx").
Proof.
  assert (Hne : "2012-xx-yy" <> EmptyString) by discriminate.
  assert (Hpre : Forall (fun q => parses_as_int 4300 q = true) ["2012"])
    by (constructor; [reflexivity|constructor]).
  split; [repeat split; try reflexivity; assumption|].
  exact (convert_date_first_unparsed_part 4300 "2012-xx-yy"
           ["2012"] "xx" ["yy"] Hne eq_refl Hpre eq_refl).
Defined.

Lemma convert_date_format_error_only_year :
  convert_date 4300 (Some "2012")
  = Raise (ValueError "Date not in ISO 8601 format.")
  /\ (forall p, In p (split "-" "2012") -> parses_as_int 4300 p = true)
  /\ List.length (split "-" "2012") <> 3%nat.
Proof.
  split; [reflexivity|].
  exact (convert_date_format_error_only 4300 "2012" eq_refl).
Defined.

Lemma convert_date_calendar_error_only_2011 :
  (convert_date 4300 (Some "2011-02-29") = Raise (ValueError_date Day)
   /\ is_calendar_error (ValueError_date Day))
  /\ exists (a b c : string) (y m d : Z),
      split "-" "2011-02-29" = [a; b; c]
      /\ int 4300 a = Return y /\ int 4300 b = Return m
      /\ int 4300 c = Return d
      /\ valid_calendar_date y m d = false
      /\ datetime_date y m d = Raise (ValueError_date Day).
Proof.
  assert (Hcal : is_calendar_error (ValueError_date Day))
    by (left; exists Day; reflexivity).
  split; [split; [reflexivity|exact Hcal]|].
  exact (convert_date_calendar_error_only 4300 "2011-02-29"
           (ValueError_date Day) eq_refl Hcal).
Defined.


Lemma convert_date_spelling_independent_padding :
  (split "-" "2012-1-5" = ["2012"; "1"; "5"]
   /\ split "-" "2012-01-05" = ["2012"; "01"; "05"]
   /\ int 4300 "1" = Return 1 /\ int 4300 "01" = Return 1
   /\ int 4300 "5" = Return 5 /\ int 4300 "05" = Return 5)
  /\ convert_date 4300 (Some "2012-1-5")
     = convert_date 4300 (Some "2012-01-05").
Proof.
  split; [repeat split|].
  exact (convert_date_spelling_independent 4300
           "2012-1-5" "2012" "1" "5" "2012-01-05" "2012" "01" "05"
           2012 1 5
           eq_refl eq_refl eq_refl eq_refl eq_refl eq_refl eq_refl eq_refl).
Defined.

Lemma main_returns_only_one_flag_ubuntu :
  snd (main (fun _ => Args (mkNamespace false true "ubuntu.csv"))
            (fun usage _ => Formatted usage)
            (fun _ _ => false)
            "./validate-csv-data" ["-u"; "ubuntu.csv"])
  = Returns 1
  /\ exists args,
      (fun _ : list string => Args (mkNamespace false true "ubuntu.csv"))
        ["-u"; "ubuntu.csv"] = Args args
      /\ exactly_one_flag args = true
      /\ (1 = 0 \/ 1 = 1)
      /\ fst (main (fun _ => Args (mkNamespace false true "ubuntu.csv"))
                   (fun usage _ => Formatted usage)
                   (fun _ _ => false)
                   "./validate-csv-data" ["-u"; "ubuntu.csv"])
         = [Validate (csv_file args)
                     (if debian args then "debian" else "ubuntu")].
Proof.
  split; [reflexivity|].
  exact (main_returns_only_one_flag
           (fun _ => Args (mkNamespace false true "ubuntu.csv"))
           (fun usage _ => Formatted usage)
           (fun _ _ => false)
           "./validate-csv-data" ["-u"; "ubuntu.csv"] 1 eq_refl).
Defined.

